(** * generate_pdf_direct.py: the API documentation composer

    The script builds one Python list [elements] of reportlab flowables by a
    long run of [elements.append(...)] calls and hands it, together with a
    [SimpleDocTemplate], to [doc.build].  This file embeds the script:

    - the values it creates (styles, table commands, flowables) as
      inductive types and records;
    - its statements in one monad [Script], whose state is the local list
      [elements] and the outside [World], and in which an exception ends the
      run: [elements.append], the stylesheet lookup [styles['...']], the
      [ParagraphStyle] constructor, [print] and [doc.build];
    - the function [create_api_pdf] as a run of these statements from the
      empty list.

    Python floats are read as exact rationals ([Q]): [0.1*inch] is [72/10].
    Binary rounding of doubles is not modelled; every comparison made below
    holds with a margin many orders of magnitude above one unit in the last
    place. *)

From Stdlib Require Import QArith ZArith Ascii String.
From stdpp Require Import base gmap strings list pretty.

(** ** Python values *)

(** An exception is identified by its class name and carries one argument. *)
Record exn := Exc { exc_class : string; exc_arg : string }.

Definition KeyError (msg : string) : exn := Exc "KeyError" msg.

Definition AssertionError (msg : string) : exn := Exc "AssertionError" msg.

(** The double quote and the line feed, which string literals of this file
    do not hold themselves. *)
Definition dq : string := String "034"%char EmptyString.
Definition nl : string := String "010"%char EmptyString.

(** [q s] is [s] between double quotes, as in the JSON samples. *)
Definition q (s : string) : string := dq +:+ s +:+ dq.

(** ** The names imported from reportlab

    The library is not part of the repository.  Only what the script uses is
    declared: constructors of the objects it creates, and the published
    values of the constants it imports. *)

(** [reportlab.lib.units]: lengths are in points, 72 to the inch. *)
Definition inch : Q := 72.

Module units.
(** The library's own millimetre, [inch / 25.4].  The script does not
    import it; [A4] is defined with it. *)
Definition mm : Q := inch / 25.4.
End units.

(** [reportlab.lib.pagesizes]: (width, height) in points. *)
Definition A4 : Q * Q := ((210 * units.mm)%Q, (297 * units.mm)%Q).

(** [reportlab.lib.colors] *)
Module colors.
Inductive Color :=
| HexColor (hex : string)
| white
| whitesmoke.
End colors.

(** [reportlab.lib.enums] *)
Inductive Alignment := TA_LEFT | TA_CENTER | TA_JUSTIFY.

(** Keyword arguments of [ParagraphStyle(name, parent=..., **kw)]. *)
Inductive StyleAttr :=
| fontSize (v : Q)
| textColor (c : colors.Color)
| backColor (c : colors.Color)
| spaceAfter (v : Q)
| spaceBefore (v : Q)
| alignment (a : Alignment)
| fontName (f : string)
| leftIndent (v : Q)
| borderPadding (v : Q).

(** An instance of [ParagraphStyle]: one that comes with a stylesheet, known
    here by its name only, or one that the script derives from a parent. *)
Inductive ParaStyle :=
| SheetStyle (name : string)
| MkParagraphStyle (name : string) (parent : ParaStyle) (kw : list StyleAttr).

Definition style_name (s : ParaStyle) : string :=
  match s with
  | SheetStyle n => n
  | MkParagraphStyle n _ _ => n
  end.

(** The other style classes of [reportlab.lib.styles]. *)
Inductive StyleClass := ListStyle | LineStyle | PropertySet.

Definition class_name (c : StyleClass) : string :=
  match c with
  | ListStyle => "ListStyle"
  | LineStyle => "LineStyle"
  | PropertySet => "PropertySet"
  end.

(** A style object, as a stylesheet holds them: a paragraph style or an
    instance of another class, known by its class and its name. *)
Inductive Style :=
| PStyle (p : ParaStyle)
| OtherStyle (class : StyleClass) (name : string).

(** [StyleSheet1]: what [styles[key]] finds, by name or by alias. *)
Abbreviation StyleSheet := (gmap string Style).

(** [getSampleStyleSheet()]: the names the library's sample sheet registers.
    All are paragraph styles but the two list styles.  The attribute values
    of these styles are the library's and are not needed here. *)
Definition getSampleStyleSheet : StyleSheet :=
  list_to_map (((fun n => (n, PStyle (SheetStyle n))) <$>
    ["Normal"; "BodyText"; "Italic"; "Heading1"; "Heading2"; "Heading3";
     "Heading4"; "Heading5"; "Heading6"; "Title"; "Bullet"; "Definition";
     "Code"]) ++
   ((fun n => (n, OtherStyle ListStyle n)) <$> ["UnorderedList"; "OrderedList"])).

(** One command of a [TableStyle].  The script writes
    [('BACKGROUND', (sc, sr), (ec, er), value)]; the two cell coordinates
    are the four integers [sc sr ec er] here, negative ones counting from
    the end as in Python. *)
Inductive TableCmd :=
| BACKGROUND (sc sr ec er : Z) (c : colors.Color)
| TEXTCOLOR (sc sr ec er : Z) (c : colors.Color)
| ALIGN (sc sr ec er : Z) (a : string)
| VALIGN (sc sr ec er : Z) (a : string)
| FONTNAME (sc sr ec er : Z) (f : string)
| FONTSIZE (sc sr ec er : Z) (v : Q)
| LEFTPADDING (sc sr ec er : Z) (v : Q)
| RIGHTPADDING (sc sr ec er : Z) (v : Q)
| TOPPADDING (sc sr ec er : Z) (v : Q)
| BOTTOMPADDING (sc sr ec er : Z) (v : Q)
| GRID (sc sr ec er : Z) (w : Q) (c : colors.Color)
| ROWBACKGROUNDS (sc sr ec er : Z) (cs : list colors.Color).

Record TableStyleObj := TableStyle { cmds : list TableCmd }.

(** A table cell holds a string or a paragraph. *)
Inductive Cell :=
| Text (s : string)
| Para (text : string) (style : ParaStyle).

(** A row of plain strings. *)
Definition row (l : list string) : list Cell := Text <$> l.

(** [Table(data, colWidths=...)] followed by [setStyle]. *)
Record TableObj := MkTable {
  data : list (list Cell);
  colWidths : list Q;
  tstyle : list TableCmd
}.

Definition Table (data : list (list Cell)) (colWidths : list Q) : TableObj :=
  MkTable data colWidths [].

Definition setStyle (t : TableObj) (s : TableStyleObj) : TableObj :=
  MkTable (data t) (colWidths t) (tstyle t ++ cmds s).

(** The four flowable classes the script imports from [reportlab.platypus]. *)
Inductive Flowable :=
| Paragraph (text : string) (style : ParaStyle)
| Spacer (width height : Q)
| PageBreak
| TableF (t : TableObj).

Coercion TableF : TableObj >-> Flowable.

(** [SimpleDocTemplate(filename, pagesize=..., ...Margin=..., title=...)] *)
Record DocTemplate := SimpleDocTemplate {
  filename : string;
  pagesize : Q * Q;
  rightMargin : Q;
  leftMargin : Q;
  topMargin : Q;
  bottomMargin : Q;
  title : string
}.

(** A Python list holds objects of any class.  These are the classes of the
    objects the script creates. *)
Inductive PyObject :=
| Flow (f : Flowable)
| StyleObj (s : Style)
| TableStyleO (s : TableStyleObj)
| Str (s : string)
| Num (v : Q)
| DocObj (d : DocTemplate).

Coercion Flow : Flowable >-> PyObject.

(** ** The outside world

    What an invocation can see and change: its arguments and environment,
    the clock, the files and the standard output. *)
Record World := MkWorld {
  argv : list string;
  environ : gmap string string;
  clock : Z;
  files : gmap string string;
  stdout : list string
}.

(** A function called from outside: effects keep what was done before an
    exception was raised. *)
Definition IO (A : Type) : Type := World -> (exn + A) * World.

(** ** The statements of the script

    A statement runs on the local list [elements] and on the world.  It
    either returns a value with the list as it has become, or raises; in
    both cases the world is as the statement left it. *)
Definition Script (A : Type) : Type :=
  list PyObject -> World -> (exn + (A * list PyObject)) * World.

#[global] Instance Script_ret : MRet Script := fun A a els w => (inr (a, els), w).

#[global] Instance Script_bind : MBind Script := fun A B f m els w =>
  match m els w with
  | (inl e, w') => (inl e, w')
  | (inr (a, els'), w') => f a els' w'
  end.

(** [raise e] *)
Definition raise {A} (e : exn) : Script A := fun _ w => (inl e, w).

(** [elements.append(x)] *)
Definition append (x : PyObject) : Script unit :=
  fun els w => (inr (tt, els ++ [x]), w).

(** The variable [elements], read. *)
Definition read_elements : Script (list PyObject) :=
  fun els w => (inr (els, els), w).

(** [styles[name]]: [StyleSheet1.__getitem__] raises [KeyError] for a key
    it does not find. *)
Definition getitem (styles : StyleSheet) (name : string) : Script Style :=
  match styles !! name with
  | Some s => mret s
  | None => raise (KeyError ("Style '" +:+ name +:+ "' not found in stylesheet"))
  end.

(** [ParagraphStyle(name, parent=parent, **kw)]: the constructor asserts that
    the parent is of the class of the new style. *)
Definition ParagraphStyle (name : string) (parent : Style) (kw : list StyleAttr)
    : Script ParaStyle :=
  match parent with
  | PStyle p => mret (MkParagraphStyle name p kw)
  | OtherStyle c _ =>
      raise (AssertionError ("Parent style " +:+ class_name c +:+
                             " must have same class as new style ParagraphStyle"))
  end.

(** [for x in xs: body] *)
Fixpoint for_ {A : Type} (xs : list A) (body : A -> Script unit) : Script unit :=
  match xs with
  | [] => mret tt
  | x :: xs' => body x ;; for_ xs' body
  end.

(** [print(s)] *)
Definition print (s : string) : Script unit :=
  fun els w =>
    (inr (tt, els),
     MkWorld (argv w) (environ w) (clock w) (files w) (stdout w ++ [s])).

(** ** The body of [create_api_pdf], lines 36 to 688

    [styles] is what [getSampleStyleSheet()] returned (line 34).  Each
    [ParagraphStyle(..., parent=styles[...])] is a lookup followed by the
    constructor, in the order Python evaluates them.  Three literals of the
    function are named at top level because the statements below speak of
    them. *)

Definition metadata_data : list (list Cell) :=
  [row ["API Version"; "v2"];
   row ["Generated"; "February 17, 2026"];
   row ["Status"; "Active"];
   row ["Endpoints"; "30+"]].

Definition toc_items : list string :=
  ["1. Authentication & Authorization";
   "2. User Management";
   "3. Medicine Store";
   "4. Admin Store Management";
   "5. Items Management";
   "6. Location Services";
   "7. Unit Management";
   "8. GST Management";
   "9. Orders";
   "10. Payments";
   "11. Notifications";
   "12. Response Formats"].

Definition footer_content : string :=
  nl +:+ "    <b>PHRMA Production App - API Documentation v1.0</b><br/>" +:+ nl +:+
  "    <b>Generated:</b> February 17, 2026<br/>" +:+ nl +:+
  "    <b>API Version:</b> v2<br/>" +:+ nl +:+
  "    <b>Total Endpoints:</b> 30+<br/>" +:+ nl +:+
  "    <b>Support:</b> api-support@phrma.com<br/>" +:+ nl +:+
  "    <br/>" +:+ nl +:+
  "    <b>Key Features:</b><br/>" +:+ nl +:+
  "    ✓ Complete REST API with JWT Authentication<br/>" +:+ nl +:+
  "    ✓ Role-based Access Control (Admin, User, Manager)<br/>" +:+ nl +:+
  "    ✓ Comprehensive Input Validation<br/>" +:+ nl +:+
  "    ✓ Automatic Notifications for Orders & Payments<br/>" +:+ nl +:+
  "    ✓ File Upload Support with Image Processing<br/>" +:+ nl +:+
  "    ✓ Error Handling with Descriptive Messages<br/>" +:+ nl +:+
  "    ✓ Pagination & Rate Limiting<br/>" +:+ nl +:+
  "    ✓ Gateway Mode Support for Microservices" +:+ nl +:+
  "    ".

Definition construct (styles : StyleSheet) : Script unit :=
  parent ← getitem styles "Heading1" ;
  title_style ← ParagraphStyle "CustomTitle" parent
      [fontSize 28; textColor (colors.HexColor "#FFFFFF"); spaceAfter 6; alignment TA_CENTER;
          fontName "Helvetica-Bold"] ;
  parent ← getitem styles "Heading2" ;
  heading_style ← ParagraphStyle "CustomHeading" parent
      [fontSize 16; textColor (colors.HexColor "#FFFFFF"); spaceAfter 12; spaceBefore 12;
          fontName "Helvetica-Bold"; backColor (colors.HexColor "#667eea")] ;
  parent ← getitem styles "Heading3" ;
  subheading_style ← ParagraphStyle "CustomSubHeading" parent
      [fontSize 13; textColor (colors.HexColor "#333333"); spaceAfter 10; spaceBefore 10;
          fontName "Helvetica-Bold"] ;
  parent ← getitem styles "BodyText" ;
  body_style ← ParagraphStyle "CustomBody" parent
      [fontSize 10; textColor (colors.HexColor "#333333"); spaceAfter 8; alignment TA_JUSTIFY] ;
  parent ← getitem styles "Normal" ;
  code_style ← ParagraphStyle "CodeStyle" parent
      [fontSize 8; textColor (colors.HexColor "#d4d4d4"); backColor (colors.HexColor "#1e1e1e");
          spaceAfter 6; fontName "Courier"] ;
  (* ============ TITLE PAGE ============ *)
  append (Spacer 1 (1.5 * inch)) ;;
  parent ← getitem styles "Normal" ;
  style ← ParagraphStyle "Subtitle" parent
      [fontSize 16; textColor (colors.HexColor "#FFFFFF"); alignment TA_CENTER] ;
  let title_data : list (list Cell) :=
      [[Para "🏥 PHRMA Production App" title_style];
       [Para "Complete API Documentation" style]] in
  let title_table := Table title_data [7 * inch]%Q in
  let title_table := setStyle title_table (TableStyle [
        BACKGROUND 0 0 (-1) (-1) (colors.HexColor "#667eea");
        ALIGN 0 0 (-1) (-1) "CENTER";
        VALIGN 0 0 (-1) (-1) "MIDDLE";
        LEFTPADDING 0 0 (-1) (-1) 20;
        RIGHTPADDING 0 0 (-1) (-1) 20;
        TOPPADDING 0 0 (-1) (-1) 20;
        BOTTOMPADDING 0 0 (-1) (-1) 20]) in
  append title_table ;;
  append (Spacer 1 (0.5 * inch)) ;;
  let metadata_table := Table metadata_data [2 * inch; 2 * inch]%Q in
  let metadata_table := setStyle metadata_table (TableStyle [
        BACKGROUND 0 0 (-1) (-1) (colors.HexColor "#f0f4ff");
        TEXTCOLOR 0 0 (-1) (-1) (colors.HexColor "#333333");
        ALIGN 0 0 (-1) (-1) "CENTER";
        FONTNAME 0 0 (-1) 0 "Helvetica-Bold";
        FONTSIZE 0 0 (-1) (-1) 11;
        BOTTOMPADDING 0 0 (-1) (-1) 12;
        TOPPADDING 0 0 (-1) (-1) 12;
        GRID 0 0 (-1) (-1) 1 (colors.HexColor "#ddd")]) in
  append metadata_table ;;
  append PageBreak ;;
  (* ============ TABLE OF CONTENTS ============ *)
  append (Paragraph "📑 Table of Contents" heading_style) ;;
  for_ toc_items (λ item,
    append (Paragraph item body_style) ;;
    append (Spacer 1 (0.1 * inch))) ;;
  append PageBreak ;;
  (* ============ AUTHENTICATION SECTION ============ *)
  append (Paragraph "🔐 Authentication & Authorization" heading_style) ;;
  append (Paragraph "Authentication Methods" subheading_style) ;;
  let auth_data : list (list Cell) :=
      [row ["Method"; "Description"; "Usage"];
       row ["JWT Token"; "Bearer token in Authorization header or cookie";
           "Authorization: Bearer {token}"];
       row ["Gateway Mode"; "Headers from API Gateway"; "X-User-ID, X-User-Role, X-User-Email"]] in
  let auth_table := Table auth_data [1.5 * inch; 2.5 * inch; 2.5 * inch]%Q in
  let auth_table := setStyle auth_table (TableStyle [
        BACKGROUND 0 0 (-1) 0 (colors.HexColor "#667eea");
        TEXTCOLOR 0 0 (-1) 0 colors.whitesmoke;
        ALIGN 0 0 (-1) (-1) "LEFT";
        VALIGN 0 0 (-1) (-1) "TOP";
        FONTNAME 0 0 (-1) 0 "Helvetica-Bold";
        FONTSIZE 0 0 (-1) 0 10;
        BOTTOMPADDING 0 0 (-1) 0 10;
        TOPPADDING 0 0 (-1) 0 10;
        BACKGROUND 0 1 (-1) (-1) (colors.HexColor "#f9f9f9");
        GRID 0 0 (-1) (-1) 1 (colors.HexColor "#ddd");
        FONTSIZE 0 1 (-1) (-1) 9;
        ROWBACKGROUNDS 0 1 (-1) (-1) [colors.white; colors.HexColor "#f9f9f9"]]) in
  append auth_table ;;
  append (Spacer 1 (0.2 * inch)) ;;
  append (Paragraph "Required Headers" subheading_style) ;;
  let headers_data : list (list Cell) :=
      [row ["Header"; "Type"; "Description"];
       row ["Content-Type"; "application/json"; "Required for POST/PUT requests"];
       row ["Authorization"; "Bearer {token}"; "For authenticated endpoints"];
       row ["X-User-ID"; "String (UUID)"; "Optional (Gateway mode)"];
       row ["X-User-Role"; "admin|user|manager"; "Optional (Gateway mode)"]] in
  let headers_table := Table headers_data [1.8 * inch; 2.2 * inch; 2.5 * inch]%Q in
  let headers_table := setStyle headers_table (TableStyle [
        BACKGROUND 0 0 (-1) 0 (colors.HexColor "#667eea");
        TEXTCOLOR 0 0 (-1) 0 colors.whitesmoke;
        ALIGN 0 0 (-1) (-1) "LEFT";
        FONTNAME 0 0 (-1) 0 "Helvetica-Bold";
        FONTSIZE 0 0 (-1) 0 10;
        BOTTOMPADDING 0 0 (-1) 0 10;
        BACKGROUND 0 1 (-1) (-1) (colors.HexColor "#f9f9f9");
        GRID 0 0 (-1) (-1) 1 (colors.HexColor "#ddd");
        FONTSIZE 0 1 (-1) (-1) 9;
        ROWBACKGROUNDS 0 1 (-1) (-1) [colors.white; colors.HexColor "#f9f9f9"]]) in
  append headers_table ;;
  append (Spacer 1 (0.2 * inch)) ;;
  append (Paragraph "User Roles & Permissions" subheading_style) ;;
  let roles_data : list (list Cell) :=
      [row ["Role"; "Permissions"; "Endpoints Access"];
       row ["admin"; "Full access, verification, store management";
           "/admin/*, /units/*, /gst/*"];
       row ["user"; "Regular user, can manage own store";
           "/medicine-store/*, /items/*, /orders/*"];
       row ["manager"; "Store manager, manages items and orders";
           "/items/*, /orders/*, /payments/*"]] in
  let roles_table := Table roles_data [1.2 * inch; 2.5 * inch; 2.8 * inch]%Q in
  let roles_table := setStyle roles_table (TableStyle [
        BACKGROUND 0 0 (-1) 0 (colors.HexColor "#667eea");
        TEXTCOLOR 0 0 (-1) 0 colors.whitesmoke;
        ALIGN 0 0 (-1) (-1) "LEFT";
        VALIGN 0 0 (-1) (-1) "TOP";
        FONTNAME 0 0 (-1) 0 "Helvetica-Bold";
        FONTSIZE 0 0 (-1) 0 10;
        BOTTOMPADDING 0 0 (-1) 0 10;
        BACKGROUND 0 1 (-1) (-1) (colors.HexColor "#f9f9f9");
        GRID 0 0 (-1) (-1) 1 (colors.HexColor "#ddd");
        FONTSIZE 0 1 (-1) (-1) 9;
        ROWBACKGROUNDS 0 1 (-1) (-1) [colors.white; colors.HexColor "#f9f9f9"]]) in
  append roles_table ;;
  append PageBreak ;;
  (* ============ USER ENDPOINTS ============ *)
  append (Paragraph "👤 User Management Endpoints" heading_style) ;;
  append (Paragraph "POST /api/v2/user/login" subheading_style) ;;
  append (Paragraph
      "Authenticate user with email and password. Returns JWT token for subsequent requests."
      body_style) ;;
  let login_request := "Request Body:" +:+ nl +:+
      "- email (String, Required): User email address" +:+ nl +:+
      "- password (String, Required): User password (minimum 8 characters)" +:+ nl +:+
      "- fcmToken (String, Optional): Firebase Cloud Messaging token for push notifications" in
  append (Paragraph login_request code_style) ;;
  append (Spacer 1 (0.1 * inch)) ;;
  let login_json := "{" +:+ q "email" +:+ ": " +:+ q "user@example.com" +:+ ", " +:+
      q "password" +:+ ": " +:+ q "securePassword123" +:+ ", " +:+ q "fcmToken" +:+ ": " +:+
      q "eO...K1" +:+ "}" in
  append (Paragraph "Request Example:" subheading_style) ;;
  append (Paragraph login_json code_style) ;;
  append (Spacer 1 (0.1 * inch)) ;;
  append (Paragraph "Success Response (200 OK):" body_style) ;;
  let success_response := "{" +:+ q "status" +:+ ": 200, " +:+ q "message" +:+ ": " +:+
      q "Login Successful" +:+ ", " +:+ q "data" +:+ ": {" +:+ q "user" +:+ ": {" +:+
      q "_id" +:+ ": " +:+ q "507f1f77bcf86cd799439011" +:+ ", " +:+ q "name" +:+ ": " +:+
      q "John Doe" +:+ ", " +:+ q "email" +:+ ": " +:+ q "user@example.com" +:+ ", " +:+
      q "phone" +:+ ": " +:+ q "+919876543210" +:+ ", " +:+ q "role" +:+ ": " +:+ q "user" +:+
      ", " +:+ q "token" +:+ ": " +:+ q "eyJhbGc...iOiJIUzI1NiIsInR5cCI6IkpXVCJ9" +:+ "}}" in
  append (Paragraph success_response code_style) ;;
  append (Spacer 1 (0.15 * inch)) ;;
  parent ← getitem styles "Normal" ;
  style ← ParagraphStyle "ReqBox" parent
      [fontSize 9; textColor (colors.HexColor "#333"); backColor (colors.HexColor "#fff3cd");
          leftIndent 10; spaceAfter 10; borderPadding 10] ;
  let req_box := Paragraph
      "<b>Requirements:</b><br/>✓ Email must be valid format<br/>✓ Password must be at least 8 characters<br/>✓ User must be registered in the system<br/>✓ Account must not be suspended"
      style in
  append req_box ;;
  append (Spacer 1 (0.1 * inch)) ;;
  append (Paragraph "POST /api/v2/user/logout" subheading_style) ;;
  append (Paragraph "Logout user by invalidating the JWT token. Clears authentication cookie."
      body_style) ;;
  parent ← getitem styles "Normal" ;
  style ← ParagraphStyle "Auth" parent
      [fontSize 9; textColor (colors.HexColor "#721c24"); backColor (colors.HexColor "#f8d7da");
          leftIndent 10; spaceAfter 10] ;
  append (Paragraph "<b>Authentication Required:</b> Bearer Token or Valid JWT Cookie" style) ;;
  append (Spacer 1 (0.2 * inch)) ;;
  append (Paragraph "POST /api/v2/user/forgot/password" subheading_style) ;;
  append (Paragraph "Request password reset. Sends OTP to registered email address." body_style) ;;
  append (Paragraph "Request Body: email (String, Required)" code_style) ;;
  append (Spacer 1 (0.15 * inch)) ;;
  append (Paragraph "POST /api/v2/user/verifyOtp" subheading_style) ;;
  append (Paragraph "Verify OTP sent to email for password reset." body_style) ;;
  append (Paragraph "Request Body: email (String, Required), otp (String, Required)" code_style) ;;
  append (Spacer 1 (0.15 * inch)) ;;
  append (Paragraph "POST /api/v2/user/ResetPassword" subheading_style) ;;
  append (Paragraph "Reset user password after OTP verification. Internal service only."
      body_style) ;;
  parent ← getitem styles "Normal" ;
  style ← ParagraphStyle "Auth" parent
      [fontSize 9; textColor (colors.HexColor "#721c24"); backColor (colors.HexColor "#f8d7da");
          leftIndent 10; spaceAfter 10] ;
  append (Paragraph "<b>Requires:</b> verifyInternalService Middleware" style) ;;
  append PageBreak ;;
  (* ============ MEDICINE STORE ============ *)
  append (Paragraph "💊 Medicine Store Endpoints" heading_style) ;;
  append (Paragraph "POST /api/v2/medicine-store/register" subheading_style) ;;
  append (Paragraph
      "Register a new medicine store with complete verification including GST, pharmacy license, and address validation."
      body_style) ;;
  append (Spacer 1 (0.1 * inch)) ;;
  let store_req_data : list (list Cell) :=
      [row ["Field"; "Type"; "Required"; "Validation"];
       row ["userName"; "String"; "Yes"; "Name of store owner"];
       row ["email"; "String"; "Yes"; "Valid email format"];
       row ["phone"; "String"; "Yes"; "10-11 digit Indian phone"];
       row ["storeName"; "String"; "Yes"; "Official store name"];
       row ["storeType"; "String"; "Yes"; "retail|wholesale|chain"];
       row ["GSTNumber"; "String"; "Yes"; "Valid 15-digit GST number"];
       row ["pharmacyLicence"; "String"; "Yes"; "Valid pharmacy license for state"];
       row ["address"; "String"; "Yes"; "Complete address"];
       row ["city"; "String"; "Yes"; "Must match pincode"];
       row ["state"; "String"; "Yes"; "Must match pincode"];
       row ["pincode"; "String"; "Yes"; "6-digit Indian pincode"]] in
  let store_req_table := Table store_req_data [1.2 * inch; 1 * inch; 0.8 * inch; 2.3 * inch]%Q in
  let store_req_table := setStyle store_req_table (TableStyle [
        BACKGROUND 0 0 (-1) 0 (colors.HexColor "#667eea");
        TEXTCOLOR 0 0 (-1) 0 colors.whitesmoke;
        ALIGN 0 0 (-1) (-1) "LEFT";
        VALIGN 0 0 (-1) (-1) "TOP";
        FONTNAME 0 0 (-1) 0 "Helvetica-Bold";
        FONTSIZE 0 0 (-1) 0 9;
        FONTSIZE 0 1 (-1) (-1) 8;
        BOTTOMPADDING 0 0 (-1) 0 8;
        TOPPADDING 0 0 (-1) 0 8;
        BACKGROUND 0 1 (-1) (-1) (colors.HexColor "#f9f9f9");
        GRID 0 0 (-1) (-1) 1 (colors.HexColor "#ddd");
        ROWBACKGROUNDS 0 1 (-1) (-1) [colors.white; colors.HexColor "#f9f9f9"]]) in
  append store_req_table ;;
  append (Spacer 1 (0.15 * inch)) ;;
  let store_json := "{" +:+ q "userName" +:+ ": " +:+ q "Dr. Rajesh Kumar" +:+ ", " +:+
      q "email" +:+ ": " +:+ q "rajesh.med@example.com" +:+ ", " +:+ q "phone" +:+ ": " +:+
      q "9876543210" +:+ ", " +:+ q "storeName" +:+ ": " +:+ q "Apollo Pharmacy" +:+ ", " +:+
      q "storeType" +:+ ": " +:+ q "retail" +:+ ", " +:+ q "GSTNumber" +:+ ": " +:+
      q "27AABCU9603R1Z0" +:+ ", " +:+ q "pharmacyLicence" +:+ ": " +:+ q "PL2024000123" +:+
      ", " +:+ q "address" +:+ ": " +:+ q "Plot 123, Medical Complex" +:+ ", " +:+ q "city" +:+
      ": " +:+ q "Bangalore" +:+ ", " +:+ q "state" +:+ ": " +:+ q "Karnataka" +:+ ", " +:+
      q "pincode" +:+ ": " +:+ q "560034" +:+ "}" in
  append (Paragraph "Request Example:" subheading_style) ;;
  append (Paragraph store_json code_style) ;;
  append (Spacer 1 (0.1 * inch)) ;;
  parent ← getitem styles "Normal" ;
  style ← ParagraphStyle "ReqBox" parent
      [fontSize 9; textColor (colors.HexColor "#333"); backColor (colors.HexColor "#fff3cd");
          leftIndent 10; spaceAfter 10] ;
  let val_req := Paragraph
      "<b>Validation Requirements:</b><br/>✓ GST format validation<br/>✓ Phone: 10-11 digits, valid Indian format<br/>✓ Pharmacy License valid for state<br/>✓ Pincode must match city and state<br/>✓ Email must be unique<br/>✓ Store enters 'pending' verification status"
      style in
  append val_req ;;
  append PageBreak ;;
  (* ============ ADMIN STORE ============ *)
  append (Paragraph "⚙️ Admin Store Management" heading_style) ;;
  let admin_endpoints :=
      [("GET /api/v2/admin/stores/pending",
          "Get all stores awaiting verification. Admin only.");
       ("GET /api/v2/admin/stores/:storeId",
           "Get detailed information about a specific store for verification review.");
       ("PUT /api/v2/admin/stores/:storeId/status",
           "Update store verification status (approve, reject, suspend).");
       ("GET /api/v2/admin/stores/stats/verification",
           "Get verification statistics and summary.")] in
  for_ admin_endpoints (λ '(endpoint, desc),
    append (Paragraph endpoint subheading_style) ;;
    append (Paragraph desc body_style) ;;
    append (Spacer 1 (0.1 * inch))) ;;
  append (Paragraph "Status Update Body:" subheading_style) ;;
  let status_json := "{" +:+ q "action" +:+ ": " +:+ q "approve" +:+ ", " +:+
      q "adminRemarks" +:+ ": " +:+ q "All documents verified successfully" +:+ "}" +:+ nl +:+
      "Valid actions: approve|reject|suspend" in
  append (Paragraph status_json code_style) ;;
  append (Spacer 1 (0.1 * inch)) ;;
  parent ← getitem styles "Normal" ;
  style ← ParagraphStyle "ReqBox" parent
      [fontSize 9; textColor (colors.HexColor "#333"); backColor (colors.HexColor "#fff3cd");
          leftIndent 10; spaceAfter 10] ;
  let admin_req := Paragraph
      "<b>Requirements:</b><br/>✓ User must have admin role<br/>✓ For reject/suspend, adminRemarks is mandatory<br/>✓ Once approved, store can add items and process orders"
      style in
  append admin_req ;;
  append PageBreak ;;
  (* ============ ITEMS ============ *)
  append (Paragraph "📦 Items Management" heading_style) ;;
  let items_endpoints :=
      [("POST /api/v2/items/add",
          "Create new regular item. Requires authentication and file uploads.");
       ("POST /api/v2/items/premium", "Create premium/featured item with enhanced visibility.");
       ("PUT /api/v2/items/update/:itemId", "Update existing item including images.");
       ("DELETE /api/v2/items/delete/:itemId", "Delete single item (admin only).");
       ("DELETE /api/v2/items/", "Delete all items (admin only - destructive operation).")] in
  for_ items_endpoints (λ '(endpoint, desc),
    append (Paragraph endpoint subheading_style) ;;
    append (Paragraph desc body_style) ;;
    append (Spacer 1 (0.08 * inch))) ;;
  append (Spacer 1 (0.1 * inch)) ;;
  parent ← getitem styles "Normal" ;
  style ← ParagraphStyle "ReqBox" parent
      [fontSize 9; textColor (colors.HexColor "#333"); backColor (colors.HexColor "#fff3cd");
          leftIndent 10; spaceAfter 10] ;
  let items_req := Paragraph
      "<b>Item Requirements:</b><br/>✓ User must be authenticated<br/>✓ Must have associated medicine store<br/>✓ Store must be verified/approved<br/>✓ Images: JPEG/PNG, max 5MB each<br/>✓ Price > 0, Quantity ≥ 0"
      style in
  append items_req ;;
  append PageBreak ;;
  (* ============ LOCATION ============ *)
  append (Paragraph "🗺️ Location Services" heading_style) ;;
  let loc_endpoints :=
      [("GET /api/v2/location/states", "Get list of all Indian states and union territories.");
       ("GET /api/v2/location/cities/:state", "Get list of cities for a given state.");
       ("GET /api/v2/location/pincode/:pincode",
           "Get city and state information for a given pincode.")] in
  for_ loc_endpoints (λ '(endpoint, desc),
    append (Paragraph endpoint subheading_style) ;;
    append (Paragraph desc body_style) ;;
    append (Spacer 1 (0.1 * inch))) ;;
  let pincode_example := "Example: /api/v2/location/pincode/560034" +:+ nl +:+ "Response: {" +:+
      q "status" +:+ ": 200, " +:+ q "data" +:+ ": {" +:+ q "pincode" +:+ ": " +:+
      q "560034" +:+ ", " +:+ q "city" +:+ ": " +:+ q "Bangalore" +:+ ", " +:+ q "state" +:+
      ": " +:+ q "Karnataka" +:+ "}}" in
  append (Paragraph pincode_example code_style) ;;
  append (Spacer 1 (0.1 * inch)) ;;
  parent ← getitem styles "Normal" ;
  style ← ParagraphStyle "Note" parent
      [fontSize 9; textColor (colors.HexColor "#0066cc"); backColor (colors.HexColor "#e7f3ff");
          leftIndent 10; spaceAfter 10] ;
  append (Paragraph "<b>Note:</b> Public endpoints, no authentication required." style) ;;
  append PageBreak ;;
  (* ============ UNITS ============ *)
  append (Paragraph "📏 Unit Management" heading_style) ;;
  append (Paragraph "Parent Units (e.g., Kilogram, Liter)" subheading_style) ;;
  let parent_units :=
      [("POST /api/v2/units/add-parent-units",
          "Create new parent unit (base measurement unit).");
       ("GET /api/v2/units/get-parent-units", "Get all parent units (admin only).");
       ("PUT /api/v2/units/update-parent-units/:id", "Update parent unit (admin only).");
       ("DELETE /api/v2/units/delete-parent-units/:id", "Delete parent unit (admin only).")] in
  for_ parent_units (λ '(endpoint, desc),
    append (Paragraph ("<b>" +:+ endpoint +:+ "</b>") body_style) ;;
    append (Paragraph desc body_style) ;;
    append (Spacer 1 (0.05 * inch))) ;;
  append (Spacer 1 (0.15 * inch)) ;;
  append (Paragraph "Child Units (e.g., 100ml, 500g)" subheading_style) ;;
  let child_units :=
      [("POST /api/v2/units/add-child-units", "Create child unit (derived from parent unit).");
       ("GET /api/v2/units/get-child-units", "Get all child units (admin only).");
       ("PUT /api/v2/units/update-child-units/:id", "Update child unit (admin only).");
       ("DELETE /api/v2/units/delete-child-units/:id", "Delete child unit (admin only).")] in
  for_ child_units (λ '(endpoint, desc),
    append (Paragraph ("<b>" +:+ endpoint +:+ "</b>") body_style) ;;
    append (Paragraph desc body_style) ;;
    append (Spacer 1 (0.05 * inch))) ;;
  append (Spacer 1 (0.1 * inch)) ;;
  let child_json := "Child Unit Example:" +:+ nl +:+ "{" +:+ q "childUnitName" +:+ ": " +:+
      q "100 Milliliters" +:+ ", " +:+ q "childUnitSymbol" +:+ ": " +:+ q "100ml" +:+ ", " +:+
      q "parentUnitId" +:+ ": " +:+ q "507f..." +:+ ", " +:+ q "conversionFactor" +:+ ": 0.1}" in
  append (Paragraph child_json code_style) ;;
  append PageBreak ;;
  (* ============ GST ============ *)
  append (Paragraph "💰 GST Rate Management" heading_style) ;;
  let gst_endpoints :=
      [("POST /api/v2/gst/add", "Add new GST rate for product category.");
       ("PUT /api/v2/gst/update/:gstId", "Update existing GST rate.");
       ("DELETE /api/v2/gst/delete/:gstId", "Delete GST rate.");
       ("GET /api/v2/gst/", "Get all GST rates.")] in
  for_ gst_endpoints (λ '(endpoint, desc),
    append (Paragraph endpoint subheading_style) ;;
    append (Paragraph desc body_style) ;;
    append (Spacer 1 (0.08 * inch))) ;;
  let gst_json := "Add GST Example:" +:+ nl +:+ "{" +:+ q "productCategory" +:+ ": " +:+
      q "Medicines" +:+ ", " +:+ q "gstRate" +:+ ": 5, " +:+ q "description" +:+ ": " +:+
      q "GST rate for medicines and pharmaceuticals" +:+ "}" +:+ nl +:+ nl +:+
      "Valid rates in India: 0%, 5%, 12%, 18%, 28%" in
  append (Paragraph gst_json code_style) ;;
  append PageBreak ;;
  (* ============ ORDERS ============ *)
  append (Paragraph "📋 Orders" heading_style) ;;
  append (Paragraph "POST /api/v2/orders" subheading_style) ;;
  append (Paragraph "Create new order with automatic notification to user." body_style) ;;
  let order_fields := "Request Body:" +:+ nl +:+ "- userId (String, Required): User ID" +:+
      nl +:+ "- items (Array, Required): Order items with quantity and price" +:+ nl +:+
      "- totalAmount (Number, Required): Order total" +:+ nl +:+
      "- deliveryAddress (String, Optional): Delivery address" in
  append (Paragraph order_fields code_style) ;;
  append (Spacer 1 (0.1 * inch)) ;;
  let order_json := "{" +:+ q "userId" +:+ ": " +:+ q "507f..." +:+ ", " +:+ q "items" +:+
      ": [{" +:+ q "itemId" +:+ ": " +:+ q "507f..." +:+ ", " +:+ q "quantity" +:+ ": 2, " +:+
      q "price" +:+ ": 299}], " +:+ q "totalAmount" +:+ ": 598, " +:+ q "deliveryAddress" +:+
      ": " +:+ q "123 Main St, Bangalore" +:+ "}" in
  append (Paragraph order_json code_style) ;;
  append (Spacer 1 (0.1 * inch)) ;;
  append (Paragraph "PATCH /api/v2/orders/:orderId/status" subheading_style) ;;
  append (Paragraph "Update order status and notify user." body_style) ;;
  let order_status := "Status Flow: pending → processing → shipped → delivered → cancelled" +:+
      nl +:+ nl +:+ "Example: {" +:+ q "status" +:+ ": " +:+ q "shipped" +:+ ", " +:+
      q "userId" +:+ ": " +:+ q "507f..." +:+ "}" in
  append (Paragraph order_status code_style) ;;
  append PageBreak ;;
  (* ============ PAYMENTS ============ *)
  append (Paragraph "💳 Payments" heading_style) ;;
  append (Paragraph "POST /api/v2/payments" subheading_style) ;;
  append (Paragraph "Process payment and send confirmation notification." body_style) ;;
  let payment_fields := "Request Body:" +:+ nl +:+ "- userId (String, Required)" +:+ nl +:+
      "- orderId (String, Required)" +:+ nl +:+ "- amount (Number, Required)" +:+ nl +:+
      "- paymentMethod (String, Required): credit_card|debit_card|upi|net_banking" in
  append (Paragraph payment_fields code_style) ;;
  append (Spacer 1 (0.1 * inch)) ;;
  append (Paragraph "POST /api/v2/payments/:paymentId/refund" subheading_style) ;;
  append (Paragraph "Process refund. Reflects in 5-7 business days." body_style) ;;
  let refund_json := "{" +:+ q "userId" +:+ ": " +:+ q "507f..." +:+ ", " +:+ q "amount" +:+
      ": 598, " +:+ q "reason" +:+ ": " +:+ q "Order cancelled by customer" +:+ "}" in
  append (Paragraph refund_json code_style) ;;
  append (Spacer 1 (0.1 * inch)) ;;
  append (Paragraph "POST /api/v2/payments/failed" subheading_style) ;;
  append (Paragraph "Handle failed payment and notify user." body_style) ;;
  append PageBreak ;;
  (* ============ NOTIFICATIONS ============ *)
  append (Paragraph "🔔 Notifications" heading_style) ;;
  let notif_endpoints :=
      [("GET /api/v2/notification-service/health",
          "Check notification service health (public).");
       ("POST /api/v2/notification-service/send-to-user",
           "Send to authenticated user (requires auth).");
       ("POST /api/v2/notification-service/send-to-users",
           "Send to multiple users by userIds array.");
       ("POST /api/v2/notification-service/send-bulk",
           "Send bulk notifications (up to 1000 users).")] in
  for_ notif_endpoints (λ '(endpoint, desc),
    append (Paragraph endpoint subheading_style) ;;
    append (Paragraph desc body_style) ;;
    append (Spacer 1 (0.08 * inch))) ;;
  let notif_json := "Notification Body:" +:+ nl +:+ "{" +:+ q "title" +:+ ": " +:+
      q "Order Confirmed" +:+ ", " +:+ q "body" +:+ ": " +:+
      q "Your order #ORD123 has been confirmed" +:+ ", " +:+ q "data" +:+ ": {" +:+
      q "orderId" +:+ ": " +:+ q "ORD123" +:+ ", " +:+ q "screen" +:+ ": " +:+
      q "OrderDetails" +:+ "}}" in
  append (Paragraph notif_json code_style) ;;
  append (Spacer 1 (0.1 * inch)) ;;
  parent ← getitem styles "Normal" ;
  style ← ParagraphStyle "ReqBox" parent
      [fontSize 9; textColor (colors.HexColor "#333"); backColor (colors.HexColor "#fff3cd");
          leftIndent 10; spaceAfter 10] ;
  let notif_req := Paragraph
      "<b>Notification Requirements:</b><br/>✓ Title under 100 characters<br/>✓ Body should be brief and meaningful<br/>✓ Data object optional with custom properties<br/>✓ Bulk: up to 1000 userIds per request"
      style in
  append notif_req ;;
  append PageBreak ;;
  (* ============ RESPONSE FORMATS ============ *)
  append (Paragraph "📊 Standard Response Formats" heading_style) ;;
  append (Paragraph "Success Response (2xx)" subheading_style) ;;
  let success_fmt := "{" +:+ q "status" +:+ ": 200, " +:+ q "message" +:+ ": " +:+
      q "Operation completed successfully" +:+ ", " +:+ q "data" +:+ ": {...}}" in
  append (Paragraph success_fmt code_style) ;;
  append (Spacer 1 (0.15 * inch)) ;;
  append (Paragraph "Error Response (4xx/5xx)" subheading_style) ;;
  let error_fmt := "{" +:+ q "status" +:+ ": 400, " +:+ q "message" +:+ ": " +:+
      q "Error description" +:+ ", " +:+ q "error" +:+ ": {" +:+ q "code" +:+ ": " +:+
      q "ERROR_CODE" +:+ ", " +:+ q "details" +:+ ": " +:+ q "..." +:+ "}}" in
  append (Paragraph error_fmt code_style) ;;
  append (Spacer 1 (0.15 * inch)) ;;
  append (Paragraph "HTTP Status Codes" subheading_style) ;;
  let status_data : list (list Cell) :=
      [row ["Code"; "Meaning"; "Scenarios"];
       row ["200"; "OK"; "Successful GET/PATCH"];
       row ["201"; "Created"; "Successful POST creating resource"];
       row ["400"; "Bad Request"; "Validation errors"];
       row ["401"; "Unauthorized"; "Missing/invalid token"];
       row ["403"; "Forbidden"; "Insufficient permissions"];
       row ["404"; "Not Found"; "Resource not found"];
       row ["409"; "Conflict"; "Duplicate resource"];
       row ["500"; "Server Error"; "Internal server error"]] in
  let status_table := Table status_data [0.8 * inch; 1.5 * inch; 3.2 * inch]%Q in
  let status_table := setStyle status_table (TableStyle [
        BACKGROUND 0 0 (-1) 0 (colors.HexColor "#667eea");
        TEXTCOLOR 0 0 (-1) 0 colors.whitesmoke;
        ALIGN 0 0 (-1) (-1) "LEFT";
        FONTNAME 0 0 (-1) 0 "Helvetica-Bold";
        FONTSIZE 0 0 (-1) 0 10;
        FONTSIZE 0 1 (-1) (-1) 9;
        BOTTOMPADDING 0 0 (-1) 0 8;
        TOPPADDING 0 0 (-1) 0 8;
        BACKGROUND 0 1 (-1) (-1) (colors.HexColor "#f9f9f9");
        GRID 0 0 (-1) (-1) 1 (colors.HexColor "#ddd");
        ROWBACKGROUNDS 0 1 (-1) (-1) [colors.white; colors.HexColor "#f9f9f9"]]) in
  append status_table ;;
  append (Spacer 1 (0.2 * inch)) ;;
  append (Paragraph "Pagination & Rate Limiting" subheading_style) ;;
  let pagination_data : list (list Cell) :=
      [row ["Parameter/Header"; "Type"; "Description"];
       row ["skip"; "Number"; "Records to skip (default: 0)"];
       row ["limit"; "Number"; "Records per page (default: 10, max: 100)"];
       row ["X-RateLimit-Limit"; "Number"; "1000 requests per hour"];
       row ["X-RateLimit-Remaining"; "Number"; "Remaining requests in window"];
       row ["X-RateLimit-Reset"; "Timestamp"; "When limit resets"]] in
  let pagination_table := Table pagination_data [2 * inch; 1.2 * inch; 2.8 * inch]%Q in
  let pagination_table := setStyle pagination_table (TableStyle [
        BACKGROUND 0 0 (-1) 0 (colors.HexColor "#667eea");
        TEXTCOLOR 0 0 (-1) 0 colors.whitesmoke;
        ALIGN 0 0 (-1) (-1) "LEFT";
        FONTNAME 0 0 (-1) 0 "Helvetica-Bold";
        FONTSIZE 0 0 (-1) 0 10;
        FONTSIZE 0 1 (-1) (-1) 9;
        BOTTOMPADDING 0 0 (-1) 0 8;
        TOPPADDING 0 0 (-1) 0 8;
        BACKGROUND 0 1 (-1) (-1) (colors.HexColor "#f9f9f9");
        GRID 0 0 (-1) (-1) 1 (colors.HexColor "#ddd");
        ROWBACKGROUNDS 0 1 (-1) (-1) [colors.white; colors.HexColor "#f9f9f9"]]) in
  append pagination_table ;;
  append PageBreak ;;
  (* ============ FOOTER ============ *)
  parent ← getitem styles "Normal" ;
  footer_style ← ParagraphStyle "Footer" parent
      [fontSize 9; textColor (colors.HexColor "#666"); spaceAfter 10; alignment TA_CENTER] ;
  append (Paragraph footer_content footer_style).

(** What the engine computes for a document: the page each block is put on
    and the number of pages. *)
Record Pagination := MkPagination {
  page_of_block : list nat;
  page_count : nat
}.

(** Local constants of [create_api_pdf], lines 18 to 28. *)
Definition pdf_filename : string := "API_DOCUMENTATION.pdf".

Definition mm : Q := 0.0393701.

Definition doc : DocTemplate :=
  SimpleDocTemplate pdf_filename A4 (15 * mm) (15 * mm) (20 * mm) (20 * mm)
    "PHRMA API Documentation".

(** [elements = []] (line 31), then the statements; the list is local and
    is dropped when the function returns. *)
Definition run_script (m : Script unit) : IO unit :=
  fun w =>
    match m [] w with
    | (inl e, w') => (inl e, w')
    | (inr (_, _), w') => (inr tt, w')
    end.

Section Engine.

(** Modelled from the spec: the Layout/Typesetting Engine behind
    [doc.build] is an external collaborator whose code is not in the
    repository.  The spec (sections 4.1 and 6) makes it responsible for
    pagination and for the serialization of the artifact, and lets it fail
    either because it cannot lay out a block or because the output target
    cannot be written.  Pagination is a function [layout] of the template
    and the blocks, which may reject them.  The bytes are a function
    [serialize] of the paginated document, of the environment and of the
    clock (a PDF carries its creation date).  [open_error path] is the
    exception, if any, that opening [path] for writing raises during the
    run.  Nothing more is assumed of the three. *)
Variable layout : DocTemplate -> list PyObject -> exn + Pagination.
Variable serialize :
  DocTemplate -> list PyObject -> Pagination -> gmap string string -> Z -> string.
Variable open_error : string -> option exn.

(** [doc.build(flowables)]: lay the blocks out; when that succeeds, open the
    template's file name for writing and store the artifact there,
    replacing what the path held.  A rejected layout and a failed open
    raise and leave the files as they are. *)
Definition doc_build (d : DocTemplate) (flowables : list PyObject) : Script unit :=
  fun els w =>
    match layout d flowables with
    | inl e => (inl e, w)
    | inr pages =>
        match open_error (filename d) with
        | Some e => (inl e, w)
        | None =>
            (inr (tt, els),
             MkWorld (argv w) (environ w) (clock w)
               (<[filename d := serialize d flowables pages (environ w) (clock w)]>
                  (files w))
               (stdout w))
        end
    end.

(** The statements of [create_api_pdf] from line 36 on, with the value of
    [styles = getSampleStyleSheet()] (line 34) as a parameter. *)
Definition create_api_pdf_script (styles : StyleSheet) : Script unit :=
  construct styles ;;
  (* Build PDF *)
  print "🚀 Generating PDF..." ;;
  elements ← read_elements ;
  doc_build doc elements ;;
  print ("✅ PDF generated successfully: " +:+ pdf_filename) ;;
  print "📊 The PDF contains:" ;;
  print "   • Complete API documentation" ;;
  print "   • 30+ endpoints with examples" ;;
  print "   • Request/Response formats" ;;
  print "   • Authentication methods" ;;
  print "   • Validation requirements" ;;
  print "   • HTTP status codes" ;;
  print "   • Professional formatting".

Definition create_api_pdf : IO unit :=
  run_script (create_api_pdf_script getSampleStyleSheet).

(** [if __name__ == "__main__": create_api_pdf()] *)
Definition main : IO unit := create_api_pdf.

(** [create_api_pdf] with another stylesheet than the library's. *)
Definition create_api_pdf_with (styles : StyleSheet) : IO unit :=
  run_script (create_api_pdf_script styles).

End Engine.

(** ** The list the script builds *)

Definition empty_world : World := MkWorld [] ∅ 0 ∅ [].

(** What lines 36 to 688 make of a list: the result of the statements, the
    world left aside.  The world plays no part in it
    ([construct_leaves_world]). *)
Definition build_elements (styles : StyleSheet) (els : list PyObject)
    : exn + (unit * list PyObject) :=
  fst (construct styles els empty_world).

(** The value of [elements] when line 688 has run, with the library's sample
    stylesheet. *)
Definition story : list PyObject :=
  match build_elements getSampleStyleSheet [] with
  | inr (_, els) => els
  | inl _ => []
  end.

(** The flowables among the objects of a list. *)
Definition flowables (els : list PyObject) : list Flowable :=
  omap (λ o, match o with Flow f => Some f | _ => None end) els.

Definition tables (els : list PyObject) : list TableObj :=
  omap (λ f, match f with TableF t => Some t | _ => None end) (flowables els).

Definition is_PageBreak (f : Flowable) : bool :=
  match f with PageBreak => true | _ => false end.

Definition para_text (f : Flowable) : option string :=
  match f with Paragraph t _ => Some t | _ => None end.

(** A paragraph in the script's [heading_style]: the only style it names
    ['CustomHeading']. *)
Definition is_heading (f : Flowable) : bool :=
  match f with
  | Paragraph _ s => bool_decide (style_name s = "CustomHeading")
  | _ => false
  end.

Inductive Kind := KParagraph | KTable | KSpacer | KPageBreak.

Definition kind (f : Flowable) : Kind :=
  match f with
  | Paragraph _ _ => KParagraph
  | Spacer _ _ => KSpacer
  | PageBreak => KPageBreak
  | TableF _ => KTable
  end.

(** The runs of blocks between explicit page breaks. *)
Fixpoint split_breaks (l : list Flowable) : list (list Flowable) :=
  match l with
  | [] => [[]]
  | b :: l' =>
      if is_PageBreak b then [] :: split_breaks l'
      else match split_breaks l' with
           | seg :: segs => (b :: seg) :: segs
           | [] => [[b]]
           end
  end.

Fixpoint join_breaks (segs : list (list Flowable)) : list Flowable :=
  match segs with
  | [] => []
  | [seg] => seg
  | seg :: rest => seg ++ PageBreak :: join_breaks rest
  end.

(** Page geometry: the width left between the side margins, in points. *)
Definition content_width (d : DocTemplate) : Q :=
  (fst (pagesize d) - leftMargin d - rightMargin d)%Q.

Definition sum_widths (t : TableObj) : Q :=
  foldr Qplus 0%Q (colWidths t).

(** The names the script looks up in the stylesheet, in the order of their
    first lookup (lines 39, 49, 60, 70 and 79). *)
Definition referenced_styles : list string :=
  ["Heading1"; "Heading2"; "Heading3"; "BodyText"; "Normal"].

(** The sample-sheet name that the script passes as [parent=styles[...]] to
    the style it creates under a given name. *)
Definition parent_name (name : string) : string :=
  if decide (name = "CustomTitle") then "Heading1"
  else if decide (name = "CustomHeading") then "Heading2"
  else if decide (name = "CustomSubHeading") then "Heading3"
  else if decide (name = "CustomBody") then "BodyText"
  else "Normal".

(** The styles an element refers to: a paragraph's own, and those of the
    paragraphs in the cells of a table. *)
Definition cell_styles (c : Cell) : list ParaStyle :=
  match c with
  | Text _ => []
  | Para _ s => [s]
  end.

Definition styles_of (o : PyObject) : list ParaStyle :=
  match o with
  | Flow (Paragraph _ s) => [s]
  | Flow (TableF t) => mjoin (data t) ≫= cell_styles
  | _ => []
  end.

(** The parent of a style is what the stylesheet holds under the name the
    script looked up: no other style stands in for it. *)
Definition parent_resolved (styles : StyleSheet) (s : ParaStyle) : Prop :=
  match s with
  | MkParagraphStyle n p _ => styles !! parent_name n = Some (PStyle p)
  | SheetStyle _ => False
  end.

(** A stylesheet that registers five given paragraph styles under the
    referenced names, and the list the script builds with it. *)
Definition sheet_of (h1 h2 h3 bt nm : ParaStyle) : StyleSheet :=
  <["Heading1" := PStyle h1]> (<["Heading2" := PStyle h2]> (<["Heading3" := PStyle h3]>
    (<["BodyText" := PStyle bt]> (<["Normal" := PStyle nm]> ∅)))).

Definition story_of (h1 h2 h3 bt nm : ParaStyle) : list PyObject :=
  match build_elements (sheet_of h1 h2 h3 bt nm) [] with
  | inr (_, els) => els
  | inl _ => []
  end.

(** The four variants of a content block. *)
Inductive ContentBlock : PyObject -> Prop :=
| CB_Paragraph text style : ContentBlock (Flow (Paragraph text style))
| CB_Table t : ContentBlock (Flow (TableF t))
| CB_Spacer w h : ContentBlock (Flow (Spacer w h))
| CB_PageBreak : ContentBlock (Flow PageBreak).

Definition is_content_block (o : PyObject) : bool :=
  match o with
  | Flow _ => true
  | _ => false
  end.

(** [is_subseq l k]: the words of [l] occur in [k] in the same order. *)
Fixpoint is_subseq (l k : list string) : bool :=
  match k with
  | [] => match l with [] => true | _ => false end
  | y :: k' =>
      match l with
      | [] => true
      | x :: l' => if decide (x = y) then is_subseq l' k' else is_subseq l k'
      end
  end.

(** A table-of-contents entry without its number: ["3. Medicine Store"]
    gives the words [Medicine], [Store]. *)
Definition toc_title (item : string) : list string := tail (String.words item).

(** A heading covers an entry when the entry's words occur in it in order. *)
Definition covers (heading item : string) : bool :=
  is_subseq (toc_title item) (String.words heading).

(** The blocks after the table of contents: what follows the second
    explicit page break. *)
Definition body_blocks (l : list Flowable) : list Flowable :=
  join_breaks (drop 2 (split_breaks l)).

Definition headings (l : list Flowable) : list string :=
  omap para_text (filter (λ f, is_heading f = true) l).

(** The lines printed after a successful build. *)
Definition success_lines : list string :=
  ["✅ PDF generated successfully: API_DOCUMENTATION.pdf";
   "📊 The PDF contains:";
   "   • Complete API documentation";
   "   • 30+ endpoints with examples";
   "   • Request/Response formats";
   "   • Authentication methods";
   "   • Validation requirements";
   "   • HTTP status codes";
   "   • Professional formatting"].

(** What a lookup of [name] followed by [ParagraphStyle(..., parent=...)]
    raises: [KeyError] when the name is not found, [AssertionError] when
    what is found is not a paragraph style. *)
Definition entry_error (styles : StyleSheet) (name : string) : option exn :=
  match styles !! name with
  | None => Some (KeyError ("Style '" +:+ name +:+ "' not found in stylesheet"))
  | Some (PStyle _) => None
  | Some (OtherStyle c _) =>
      Some (AssertionError ("Parent style " +:+ class_name c +:+
                            " must have same class as new style ParagraphStyle"))
  end.

(** The error of the first name, in the given order, that has one. *)
Fixpoint first_error (styles : StyleSheet) (names : list string) : option exn :=
  match names with
  | [] => None
  | n :: names' =>
      match entry_error styles n with
      | Some e => Some e
      | None => first_error styles names'
      end
  end.

(** A statement that only appends and leaves the world alone: run on a
    list [els0] in a world [w] it gives what it gives on the empty list in
    the empty world, after [els0], and [w]. *)
Definition appends_only {A} (m : Script A) : Prop :=
  forall els0 w,
    m els0 w = (match fst (m [] empty_world) with
                | inl e => inl e
                | inr (a, els) => inr (a, els0 ++ els)
                end, w).

Definition cell_text (c : Cell) : string :=
  match c with
  | Text s => s
  | Para t _ => t
  end.

(** A table has at least one row, and every row has one cell per column
    width. *)
Definition rectangular (t : TableObj) : bool :=
  negb (bool_decide (length (data t) = 0%nat)) &&
  forallb (λ r, bool_decide (length r = length (colWidths t))) (data t).

(** An element with the parent of each of its styles left out: everything
    else is kept, the name and the keyword attributes of the styles, the
    texts, the cells, the widths and the table commands. *)
Definition no_parent : ParaStyle := SheetStyle "".

Definition style_without_parent (s : ParaStyle) : ParaStyle :=
  match s with
  | SheetStyle n => SheetStyle n
  | MkParagraphStyle n _ kw => MkParagraphStyle n no_parent kw
  end.

Definition cell_without_parent (c : Cell) : Cell :=
  match c with
  | Text s => Text s
  | Para t s => Para t (style_without_parent s)
  end.

Definition without_parents (o : PyObject) : PyObject :=
  match o with
  | Flow (Paragraph t s) => Flow (Paragraph t (style_without_parent s))
  | Flow (TableF t) =>
      Flow (TableF (MkTable ((λ r : list Cell, cell_without_parent <$> r) <$> data t)
                      (colWidths t) (tstyle t)))
  | _ => o
  end.

(** What a lookup of [name] followed by [ParagraphStyle(..., parent=...)]
    leaves to go on with, read from what the lookup found. *)
Definition found (name : string) (o : option Style) : exn + ParaStyle :=
  match o with
  | None => inl (KeyError ("Style '" +:+ name +:+ "' not found in stylesheet"))
  | Some (PStyle p) => inr p
  | Some (OtherStyle c _) =>
      inl (AssertionError ("Parent style " +:+ class_name c +:+
                           " must have same class as new style ParagraphStyle"))
  end.

(** What the construction gives, read from the five lookups alone. *)
Definition outcome_of (o1 o2 o3 ob on : option Style)
    : exn + (unit * list PyObject) :=
  match found "Heading1" o1 with
  | inl e => inl e
  | inr h1 =>
  match found "Heading2" o2 with
  | inl e => inl e
  | inr h2 =>
  match found "Heading3" o3 with
  | inl e => inl e
  | inr h3 =>
  match found "BodyText" ob with
  | inl e => inl e
  | inr bt =>
  match found "Normal" on with
  | inl e => inl e
  | inr nm => inr (tt, story_of h1 h2 h3 bt nm)
  end end end end end.


(** * Properties *)

(** ** Generic facts about the statements *)

Lemma bind_ret {A B} (a : A) (f : A -> Script B) : (mret a ≫= f) = f a.
Proof. reflexivity. Qed.

Lemma getitem_Some (styles : StyleSheet) name s :
  styles !! name = Some s -> getitem styles name = mret s.
Proof. intros H. unfold getitem. rewrite H. reflexivity. Qed.

Lemma getitem_None (styles : StyleSheet) name :
  styles !! name = None ->
  getitem styles name
  = raise (KeyError ("Style '" +:+ name +:+ "' not found in stylesheet")).
Proof. intros H. unfold getitem. rewrite H. reflexivity. Qed.

Lemma build_elements_story :
  build_elements getSampleStyleSheet [] = inr (tt, story).
Proof. vm_compute. reflexivity. Qed.

(** Rewrite the lookups that the context decides, then compute. *)
Ltac run_construct :=
  unfold build_elements, construct;
  repeat match goal with
    | H : _ !! _ = Some _ |- _ => rewrite (getitem_Some _ _ _ H); clear H
    | H : _ !! _ = None |- _ => rewrite (getitem_None _ _ H); clear H
    end;
  vm_compute; reflexivity.

(** Only the five referenced entries of the stylesheet matter. *)
Lemma build_elements_resolved (styles : StyleSheet) h1 h2 h3 bt nm :
  styles !! "Heading1" = Some (PStyle h1) ->
  styles !! "Heading2" = Some (PStyle h2) ->
  styles !! "Heading3" = Some (PStyle h3) ->
  styles !! "BodyText" = Some (PStyle bt) ->
  styles !! "Normal" = Some (PStyle nm) ->
  build_elements styles [] = inr (tt, story_of h1 h2 h3 bt nm).
Proof. intros H1 H2 H3 Hb Hn. run_construct. Qed.

Lemma story_story_of :
  story = story_of (SheetStyle "Heading1") (SheetStyle "Heading2")
            (SheetStyle "Heading3") (SheetStyle "BodyText") (SheetStyle "Normal").
Proof. vm_compute. reflexivity. Qed.

Lemma is_content_block_spec o : is_content_block o = true -> ContentBlock o.
Proof.
  destruct o as [f| | | | |]; try discriminate.
  intros _. destruct f; constructor.
Qed.

Lemma split_breaks_nonempty l : split_breaks l <> [].
Proof.
  destruct l as [|b l]; simpl; [discriminate|].
  destruct (is_PageBreak b); [discriminate|].
  destruct (split_breaks l); discriminate.
Qed.

(** Joining the runs with page breaks gives the list back. *)
Lemma join_split_breaks l : join_breaks (split_breaks l) = l.
Proof.
  induction l as [|b l IH]; [reflexivity|].
  pose proof (split_breaks_nonempty l) as Hne.
  simpl. destruct (split_breaks l) as [|seg segs]; [congruence|].
  destruct b; simpl; destruct segs; simpl in *; congruence.
Qed.

(** [is_subseq] decides stdpp's [sublist]. *)
Lemma is_subseq_sublist (l k : list string) :
  is_subseq l k = true <-> l `sublist_of` k.
Proof.
  revert l. induction k as [|y k IH]; intros l.
  - destruct l; simpl; split; try discriminate; auto using sublist_nil.
    intros H. apply sublist_nil_r in H. discriminate.
  - destruct l as [|x l]; simpl.
    + split; auto using sublist_nil_l.
    + destruct (decide (x = y)) as [->|Hne]; rewrite IH.
      * split; [apply sublist_skip|].
        intros H. apply sublist_cons_r in H as [H|(l' & E & H)].
        -- etransitivity; [|exact H]. apply sublist_cons. reflexivity.
        -- injection E as <-. exact H.
      * split; [apply sublist_cons|].
        intros H. apply sublist_cons_r in H as [H|(l' & E & H)]; [exact H|].
        congruence.
Qed.

(** ** The statements only append and leave the world alone *)

Lemma appends_only_ret {A} (a : A) : appends_only (mret a).
Proof. intros els0 w. cbn. rewrite app_nil_r. reflexivity. Qed.

Lemma appends_only_raise {A} e : appends_only (raise (A := A) e).
Proof. intros els0 w. reflexivity. Qed.

Lemma appends_only_append x : appends_only (append x).
Proof. intros els0 w. reflexivity. Qed.

Lemma appends_only_getitem (styles : StyleSheet) name :
  appends_only (getitem styles name).
Proof.
  unfold getitem. destruct (styles !! name);
    [apply appends_only_ret|apply appends_only_raise].
Qed.

Lemma appends_only_ParagraphStyle name parent kw :
  appends_only (ParagraphStyle name parent kw).
Proof.
  destruct parent; [apply appends_only_ret|apply appends_only_raise].
Qed.

Lemma appends_only_bind {A B} (m : Script A) (f : A -> Script B) :
  appends_only m -> (forall a, appends_only (f a)) -> appends_only (m ≫= f).
Proof.
  intros Hm Hf els0 w. unfold mbind, Script_bind.
  rewrite (Hm els0 w), (Hm [] empty_world).
  destruct (fst (m [] empty_world)) as [e|[a els]]; [reflexivity|].
  simpl. rewrite (Hf a (els0 ++ els) w), (Hf a els empty_world).
  destruct (fst (f a [] empty_world)) as [e|[b els']]; [reflexivity|].
  simpl. rewrite app_assoc. reflexivity.
Qed.

Lemma appends_only_for {A} (xs : list A) (body : A -> Script unit) :
  (forall x, appends_only (body x)) -> appends_only (for_ xs body).
Proof.
  intros Hbody. induction xs as [|x xs IH]; simpl.
  - apply appends_only_ret.
  - apply appends_only_bind; [apply Hbody|intros _; exact IH].
Qed.

Ltac appends_only_step :=
  lazymatch goal with
  | |- appends_only (mbind _ _) => refine (appends_only_bind _ _ _ _); [|intros ?]
  | |- appends_only (append _) => exact (appends_only_append _)
  | |- appends_only (getitem _ _) => exact (appends_only_getitem _ _)
  | |- appends_only (ParagraphStyle _ _ _) => exact (appends_only_ParagraphStyle _ _ _)
  | |- appends_only (for_ _ _) =>
      refine (appends_only_for _ _ _);
      let x := fresh "x" in intros x; try destruct x as [? ?]
  | |- appends_only (let _ := _ in _) => lazy zeta
  | |- appends_only ((fun _ => _) _) => lazy beta
  end.

Lemma construct_appends_only (styles : StyleSheet) :
  appends_only (construct styles).
Proof. unfold construct. repeat appends_only_step. Qed.

(** Lines 36 to 688 in any world: the world is left as it is, and the list
    is the one [build_elements] gives. *)
Lemma construct_leaves_world (styles : StyleSheet) els (w : World) :
  construct styles els w = (build_elements styles els, w).
Proof.
  unfold build_elements.
  rewrite (construct_appends_only styles els w),
    (construct_appends_only styles els empty_world).
  reflexivity.
Qed.

(** ** What the construction gives, for any stylesheet *)

Ltac entry_case styles name p H :=
  destruct (styles !! name) as [[p|? ?]|] eqn:H;
  cbn iota; [|run_construct|run_construct].

(** The error of the first referenced name that has one, or the list built
    from the five paragraph styles found. *)
Lemma build_elements_outcome (styles : StyleSheet) :
  match first_error styles referenced_styles with
  | Some e => build_elements styles [] = inl e
  | None =>
      exists h1 h2 h3 bt nm,
        styles !! "Heading1" = Some (PStyle h1) /\
        styles !! "Heading2" = Some (PStyle h2) /\
        styles !! "Heading3" = Some (PStyle h3) /\
        styles !! "BodyText" = Some (PStyle bt) /\
        styles !! "Normal" = Some (PStyle nm) /\
        build_elements styles [] = inr (tt, story_of h1 h2 h3 bt nm)
  end.
Proof.
  unfold referenced_styles. cbn [first_error]. unfold entry_error.
  entry_case styles "Heading1" h1 H1.
  entry_case styles "Heading2" h2 H2.
  entry_case styles "Heading3" h3 H3.
  entry_case styles "BodyText" bt Hb.
  entry_case styles "Normal" nm Hn.
  exists h1, h2, h3, bt, nm. repeat split; try reflexivity.
  apply build_elements_resolved; assumption.
Qed.

(** A successful construction found five paragraph styles. *)
Lemma build_elements_inr (styles : StyleSheet) els :
  build_elements styles [] = inr (tt, els) ->
  exists h1 h2 h3 bt nm,
    styles !! "Heading1" = Some (PStyle h1) /\
    styles !! "Heading2" = Some (PStyle h2) /\
    styles !! "Heading3" = Some (PStyle h3) /\
    styles !! "BodyText" = Some (PStyle bt) /\
    styles !! "Normal" = Some (PStyle nm) /\
    els = story_of h1 h2 h3 bt nm.
Proof.
  intros Hrun. pose proof (build_elements_outcome styles) as Hout.
  destruct (first_error styles referenced_styles) as [e|].
  - rewrite Hout in Hrun. discriminate.
  - destruct Hout as (h1 & h2 & h3 & bt & nm & H1 & H2 & H3 & Hb & Hn & Hok).
    rewrite Hok in Hrun. injection Hrun as <-.
    exists h1, h2, h3, bt, nm. repeat split; assumption.
Qed.

(** ** The block sequence *)

(** Whatever the stylesheet, a list that the construction returns holds
    content blocks only. *)
Lemma built_elements_are_content_blocks (styles : StyleSheet) els :
  build_elements styles [] = inr (tt, els) -> Forall ContentBlock els.
Proof.
  intros Hrun.
  destruct (build_elements_inr _ _ Hrun)
    as (h1 & h2 & h3 & bt & nm & _ & _ & _ & _ & _ & ->).
  apply Forall_forall. intros o Ho. apply is_content_block_spec.
  assert (Hall : forallb is_content_block (story_of h1 h2 h3 bt nm) = true)
    by (vm_compute; reflexivity).
  rewrite forallb_forall in Hall. apply Hall, list_elem_of_In, Ho.
Qed.

(** C8: the construction succeeds, and every element of the list it builds
    is a Paragraph, a Table, a Spacer or a PageBreak; the list holds no
    object of any other class. *)
Theorem elements_are_content_blocks :
  build_elements getSampleStyleSheet [] = inr (tt, story) /\
  Forall ContentBlock story /\
  kind <$> flowables story ⊆ [KParagraph; KTable; KSpacer; KPageBreak] /\
  length (flowables story) = length story.
Proof.
  split; [exact build_elements_story|].
  split; [exact (built_elements_are_content_blocks _ _ build_elements_story)|].
  split; [|vm_compute; reflexivity].
  intros k _. destruct k; set_solver.
Qed.

(** C3: the list is the title page, a page break, the table of contents, a
    page break, then twelve sections each closed by a page break, then the
    closing summary, which is the last block.  The title page is a spacer,
    the title table, a spacer and the metadata table; the table of contents
    is its heading and one paragraph and spacer per entry; each section
    opens with its only heading; no part holds a page break of its own. *)
Theorem blocks_in_document_order :
  exists (title_page toc : list Flowable) (sections : list (list Flowable))
         (closing : Flowable),
    story = Flow <$> (title_page ++ [PageBreak] ++ toc ++ [PageBreak] ++
                      (sections ≫= λ sec, sec ++ [PageBreak]) ++ [closing]) /\
    kind <$> title_page = [KSpacer; KTable; KSpacer; KTable] /\
    headings toc = ["📑 Table of Contents"] /\
    omap para_text (tail toc) = toc_items /\
    kind <$> tail toc = (toc_items ≫= λ _, [KParagraph; KSpacer]) /\
    length sections = length toc_items /\
    forallb (λ sec, match sec with
                    | b :: rest => is_heading b && forallb (negb ∘ is_heading) rest
                    | [] => false
                    end) sections = true /\
    forallb (negb ∘ is_PageBreak) (title_page ++ toc ++ mjoin sections) = true /\
    para_text closing = Some footer_content /\
    last story = Some (Flow closing).
Proof.
  pose (segs := split_breaks (flowables story)).
  exists (segs !!! 0%nat), (segs !!! 1%nat), (take 12 (drop 2 segs)),
    (default PageBreak (last (flowables story))).
  repeat split; vm_compute; reflexivity.
Qed.

(** C10: the table of contents has twelve entries, numbered 1 to 12, and
    the page of the list that follows the first page break lists exactly
    them, in order, each as a paragraph followed by a spacer, under the
    heading of the page; after it the list holds twelve headings; the i-th
    heading, and no other, covers the i-th entry, from "Authentication &
    Authorization" to "Response Formats". *)
Theorem toc_matches_section_headings :
  length toc_items = 12%nat /\
  (λ item, hd "" (String.words item)) <$> toc_items
    = (λ i, pretty i +:+ ".") <$> seq 1 12 /\
  head toc_items = Some "1. Authentication & Authorization" /\
  last toc_items = Some "12. Response Formats" /\
  omap para_text (split_breaks (flowables story) !!! 1%nat)
    = "📑 Table of Contents" :: toc_items /\
  kind <$> split_breaks (flowables story) !!! 1%nat
    = KParagraph :: (toc_items ≫= λ _, [KParagraph; KSpacer]) /\
  headings (split_breaks (flowables story) !!! 1%nat) = ["📑 Table of Contents"] /\
  headings (body_blocks (flowables story)) =
    ["🔐 Authentication & Authorization"; "👤 User Management Endpoints";
     "💊 Medicine Store Endpoints"; "⚙️ Admin Store Management";
     "📦 Items Management"; "🗺️ Location Services"; "📏 Unit Management";
     "💰 GST Rate Management"; "📋 Orders"; "💳 Payments"; "🔔 Notifications";
     "📊 Standard Response Formats"] /\
  length (headings (body_blocks (flowables story))) = 12%nat /\
  (λ h, covers h <$> toc_items) <$> headings (body_blocks (flowables story))
    = (λ i, (λ j, bool_decide (i = j)) <$> seq 0 12) <$> seq 0 12.
Proof. repeat split; vm_compute; reflexivity. Qed.

(** ** One invocation *)

Lemma construct_then {B} (styles : StyleSheet) (k : unit -> Script B) els (w : World) :
  (construct styles ≫= k) els w =
  match build_elements styles els with
  | inl e => (inl e, w)
  | inr (a, els') => k a els' w
  end.
Proof.
  unfold mbind, Script_bind. rewrite construct_leaves_world.
  destruct (build_elements styles els) as [e|[a els']]; reflexivity.
Qed.

Lemma print_then {B} (s : string) (k : Script B) els (w : World) :
  (print s ;; k) els w =
  k els (MkWorld (argv w) (environ w) (clock w) (files w) (stdout w ++ [s])).
Proof. reflexivity. Qed.

Lemma read_elements_then {B} (k : list PyObject -> Script B) els (w : World) :
  (read_elements ≫= k) els w = k els els w.
Proof. reflexivity. Qed.

Lemma doc_build_then {B} layout serialize open_error d fl (k : Script B) els
    (w : World) :
  (doc_build layout serialize open_error d fl ;; k) els w =
  match layout d fl with
  | inl e => (inl e, w)
  | inr pages =>
      match open_error (filename d) with
      | Some e => (inl e, w)
      | None =>
          k els (MkWorld (argv w) (environ w) (clock w)
                   (<[filename d := serialize d fl pages (environ w) (clock w)]>
                      (files w))
                   (stdout w))
      end
  end.
Proof.
  unfold mbind, Script_bind, doc_build.
  destruct (layout d fl); [reflexivity|].
  destruct (open_error (filename d)); reflexivity.
Qed.

Ltac world_fields := cbn [argv environ clock files stdout].

(** Every invocation, with any stylesheet.  A failed construction ends it
    at once.  Otherwise the first line is printed and the engine is given
    the template [doc] and the list built; a rejected layout and a failed
    open end the invocation there; otherwise the artifact is stored under
    the template's file name and the remaining lines are printed. *)
Lemma create_api_pdf_with_run layout serialize open_error (styles : StyleSheet)
    (w : World) :
  create_api_pdf_with layout serialize open_error styles w =
  match build_elements styles [] with
  | inl e => (inl e, w)
  | inr (_, els) =>
      match layout doc els with
      | inl e =>
          (inl e, MkWorld (argv w) (environ w) (clock w) (files w)
                    (stdout w ++ ["🚀 Generating PDF..."]))
      | inr pages =>
          match open_error (filename doc) with
          | Some e =>
              (inl e, MkWorld (argv w) (environ w) (clock w) (files w)
                        (stdout w ++ ["🚀 Generating PDF..."]))
          | None =>
              (inr tt,
               MkWorld (argv w) (environ w) (clock w)
                 (<[filename doc := serialize doc els pages (environ w) (clock w)]>
                    (files w))
                 (stdout w ++ "🚀 Generating PDF..." :: success_lines))
          end
      end
  end.
Proof.
  destruct w as [a e c f o].
  unfold create_api_pdf_with, run_script, create_api_pdf_script.
  rewrite construct_then.
  destruct (build_elements styles []) as [ex|[[] els]]; [reflexivity|].
  rewrite print_then, read_elements_then, doc_build_then. world_fields.
  destruct (layout doc els) as [ex|pages]; [reflexivity|].
  destruct (open_error (filename doc)) as [ex|]; [reflexivity|].
  repeat (rewrite print_then; world_fields).
  unfold print; world_fields.
  rewrite <- !app_assoc. reflexivity.
Qed.

Lemma create_api_pdf_with_sample layout serialize open_error :
  create_api_pdf layout serialize open_error
  = create_api_pdf_with layout serialize open_error getSampleStyleSheet.
Proof. reflexivity. Qed.

(** Every invocation of the script itself. *)
Lemma create_api_pdf_run layout serialize open_error (w : World) :
  create_api_pdf layout serialize open_error w =
  match layout doc story with
  | inl e =>
      (inl e, MkWorld (argv w) (environ w) (clock w) (files w)
                (stdout w ++ ["🚀 Generating PDF..."]))
  | inr pages =>
      match open_error (filename doc) with
      | Some e =>
          (inl e, MkWorld (argv w) (environ w) (clock w) (files w)
                    (stdout w ++ ["🚀 Generating PDF..."]))
      | None =>
          (inr tt,
           MkWorld (argv w) (environ w) (clock w)
             (<[filename doc := serialize doc story pages (environ w) (clock w)]>
                (files w))
             (stdout w ++ "🚀 Generating PDF..." :: success_lines))
      end
  end.
Proof.
  rewrite create_api_pdf_with_sample, create_api_pdf_with_run,
    build_elements_story.
  reflexivity.
Qed.

(** ** Page geometry and table widths *)

(** Comparison of two rationals given by the script's literals. *)
Ltac qcompare := vm_compute; first [reflexivity | discriminate].

(** Every table of the list has column widths that sum to at most seven
    inches, which is less than the content width of the template. *)
Lemma tables_within_content_width :
  length (tables story) = 8%nat /\
  Forall (λ t, (sum_widths t <= 7 * inch)%Q) (tables story) /\
  (7 * inch < content_width doc)%Q /\
  Forall (λ t, (sum_widths t <= content_width doc)%Q) (tables story).
Proof.
  assert (H7 : Forall (λ t, (sum_widths t <= 7 * inch)%Q) (tables story)).
  { apply Forall_forall. intros t Ht.
    assert (Hall : forallb (λ t, Qle_bool (sum_widths t) (7 * inch))
                     (tables story) = true) by (vm_compute; reflexivity).
    rewrite forallb_forall in Hall. apply Qle_bool_iff, Hall, list_elem_of_In, Ht. }
  assert (Hw : (7 * inch < content_width doc)%Q) by qcompare.
  split; [vm_compute; reflexivity|].
  split; [exact H7|]. split; [exact Hw|].
  eapply Forall_impl; [exact H7|]. intros t Ht. simpl in Ht.
  eapply Qle_trans; [exact Ht|]. apply Qlt_le_weak, Hw.
Qed.

(** C9: the margins handed to the engine are [15*mm] and [20*mm] with the
    script's [mm = 0.0393701], bare numbers that the engine reads as points:
    about 0.59 pt and 0.79 pt, not the 42.5 pt and 56.7 pt of 15 mm and
    20 mm.  The content width on A4 is about 594 pt, 8.25 inches, where
    15 mm side margins would leave about 7.08 inches.  The template is the
    same constant in every invocation. *)
Theorem margins_are_points_not_millimetres :
  mm = 0.0393701%Q /\
  leftMargin doc = (15 * mm)%Q /\ rightMargin doc = (15 * mm)%Q /\
  topMargin doc = (20 * mm)%Q /\ bottomMargin doc = (20 * mm)%Q /\
  pagesize doc = A4 /\
  (mm * 25.4 == 1.00000054)%Q /\
  (0.585 < leftMargin doc)%Q /\ (leftMargin doc < 0.595)%Q /\
  (0.785 < topMargin doc)%Q /\ (topMargin doc < 0.795)%Q /\
  (42.5 < 15 * units.mm)%Q /\ (56.6 < 20 * units.mm)%Q /\
  (593.5 < content_width doc)%Q /\ (content_width doc < 594.5)%Q /\
  (8.245 < content_width doc / inch)%Q /\ (content_width doc / inch < 8.255)%Q /\
  (7.08 < (fst A4 - 15 * units.mm - 15 * units.mm) / inch)%Q /\
  ((fst A4 - 15 * units.mm - 15 * units.mm) / inch < 7.09)%Q /\
  (forall layout serialize open_error (w : World),
     fst (create_api_pdf layout serialize open_error w)
     = match layout doc story with
       | inl e => inl e
       | inr _ =>
           match open_error (filename doc) with
           | Some e => inl e
           | None => inr tt
           end
       end).
Proof.
  repeat split; try qcompare.
  intros layout serialize open_error w. rewrite create_api_pdf_run.
  destruct (layout doc story); [reflexivity|].
  destruct (open_error (filename doc)); reflexivity.
Qed.

(** ** Style references *)

Ltac resolve_parent styles :=
  match goal with
  | |- parent_resolved _ (MkParagraphStyle ?n ?p _) =>
      let r := eval vm_compute in (parent_name n) in
      change (styles !! r = Some (PStyle p)); assumption
  end.

(** With five paragraph styles under the referenced names, every style of
    the built list has the stylesheet's own entry as parent. *)
Lemma story_of_parents_resolved (styles : StyleSheet) h1 h2 h3 bt nm :
  styles !! "Heading1" = Some (PStyle h1) ->
  styles !! "Heading2" = Some (PStyle h2) ->
  styles !! "Heading3" = Some (PStyle h3) ->
  styles !! "BodyText" = Some (PStyle bt) ->
  styles !! "Normal" = Some (PStyle nm) ->
  Forall (parent_resolved styles) (story_of h1 h2 h3 bt nm ≫= styles_of).
Proof.
  intros H1 H2 H3 Hb Hn.
  remember (story_of h1 h2 h3 bt nm ≫= styles_of) as l eqn:E.
  vm_compute in E. subst l.
  repeat (constructor; [resolve_parent styles|]).
  constructor.
Qed.

Lemma first_error_class (styles : StyleSheet) names e :
  first_error styles names = Some e ->
  exc_class e = "KeyError" \/ exc_class e = "AssertionError".
Proof.
  induction names as [|n names IH]; simpl; [discriminate|].
  unfold entry_error. destruct (styles !! n) as [[p|c nme]|].
  - exact IH.
  - intros [= <-]. right. reflexivity.
  - intros [= <-]. left. reflexivity.
Qed.



(** ** Page breaks *)

(** The list holds fourteen explicit page breaks; none is the first or the
    last block and no two are adjacent: the fifteen runs between them are
    all non-empty. *)
Lemma story_page_breaks :
  length (filter (λ f, is_PageBreak f = true) (flowables story)) = 14%nat /\
  length (split_breaks (flowables story)) = 15%nat /\
  forallb (λ seg, negb (bool_decide (length seg = 0%nat)))
    (split_breaks (flowables story)) = true.
Proof. repeat split; vm_compute; reflexivity. Qed.

(** ** Runs of the script *)

(** In every world the statements of lines 36 to 688 build the same list,
    whose metadata table holds the literal rows 'Generated', 'February 17,
    2026' and 'Endpoints', '30+' and whose closing paragraph holds the
    literal [footer_content]; every invocation hands the engine this list
    with the same template. *)
Lemma story_in_every_world (w : World) :
  construct getSampleStyleSheet [] w = (inr (tt, story), w) /\
  metadata_data ∈ data <$> tables story /\
  row ["Generated"; "February 17, 2026"] ∈ metadata_data /\
  row ["Endpoints"; "30+"] ∈ metadata_data /\
  last (omap para_text (flowables story)) = Some footer_content.
Proof.
  split; [|split; [|split; [|split]]].
  - rewrite construct_leaves_world, build_elements_story. reflexivity.
  - apply list_elem_of_In. vm_compute. right. left. reflexivity.
  - unfold metadata_data. set_solver.
  - unfold metadata_data. set_solver.
  - vm_compute. reflexivity.
Qed.


(** * Further properties of the script *)

(** X3: the construction never removes, replaces or reorders an element.
    Run on any list it either raises what it raises on the empty list, or
    returns that list followed by what it builds from the empty list. *)
Theorem construction_only_appends (styles : StyleSheet) (els0 : list PyObject) :
  build_elements styles els0 =
  match build_elements styles [] with
  | inl e => inl e
  | inr (u, els) => inr (u, els0 ++ els)
  end.
Proof.
  unfold build_elements.
  rewrite (construct_appends_only styles els0 empty_world). reflexivity.
Qed.

(** ** The stylesheet *)

Ltac lookup_case styles name H :=
  destruct (styles !! name) as [[?|? ?]|] eqn:H;
  cbn iota; [|run_construct|run_construct].

Lemma build_elements_lookups (styles : StyleSheet) :
  build_elements styles [] =
  outcome_of (styles !! "Heading1") (styles !! "Heading2") (styles !! "Heading3")
    (styles !! "BodyText") (styles !! "Normal").
Proof.
  unfold outcome_of, found.
  lookup_case styles "Heading1" H1.
  lookup_case styles "Heading2" H2.
  lookup_case styles "Heading3" H3.
  lookup_case styles "BodyText" Hb.
  lookup_case styles "Normal" Hn.
  apply build_elements_resolved; assumption.
Qed.

(** X1: the construction reads the stylesheet under the five referenced
    names only.  Two stylesheets that agree on them give the same outcome,
    the same list or the same exception, whatever else they register. *)
Theorem construction_reads_five_entries (s1 s2 : StyleSheet) :
  Forall (λ n, s1 !! n = s2 !! n) referenced_styles ->
  build_elements s1 [] = build_elements s2 [].
Proof.
  intros H. rewrite !build_elements_lookups.
  unfold referenced_styles in H.
  apply Forall_cons in H as [E1 H]. apply Forall_cons in H as [E2 H].
  apply Forall_cons in H as [E3 H]. apply Forall_cons in H as [Eb H].
  apply Forall_cons in H as [En _].
  rewrite E1, E2, E3, Eb, En. reflexivity.
Qed.

Lemma construction_reads_five_entries_witness :
  build_elements getSampleStyleSheet [] =
  build_elements (<["Watermark" := PStyle (SheetStyle "Watermark")]>
                    (delete "Title" getSampleStyleSheet)) [].
Proof.
  apply construction_reads_five_entries. unfold referenced_styles.
  repeat (constructor; [vm_compute; reflexivity|]). constructor.
Defined.

(** X2: the stylesheet decides the parent of each style and nothing else.
    Whenever the construction succeeds, the list is, but for the parents
    of the styles, the list built with the sample stylesheet: the same
    blocks in the same order, with the same texts, cells, column widths,
    table commands, spacer sizes, style names and keyword attributes. *)
Theorem stylesheet_changes_parents_only (styles : StyleSheet) els :
  build_elements styles [] = inr (tt, els) ->
  without_parents <$> els = without_parents <$> story.
Proof.
  intros Hrun.
  destruct (build_elements_inr _ _ Hrun)
    as (h1 & h2 & h3 & bt & nm & _ & _ & _ & _ & _ & ->).
  vm_compute. reflexivity.
Qed.

Lemma stylesheet_changes_parents_only_witness :
  let h := MkParagraphStyle "House" (SheetStyle "Normal") [fontName "Times-Roman"] in
  without_parents <$> story_of h h h h h = without_parents <$> story.
Proof.
  intros h.
  apply (stylesheet_changes_parents_only (sheet_of h h h h h)).
  vm_compute. reflexivity.
Defined.

(** X7: whenever the construction succeeds the list holds eight tables,
    each with at least one row and, in every row, exactly one cell per
    column width. *)
Theorem tables_are_rectangular (styles : StyleSheet) els :
  build_elements styles [] = inr (tt, els) ->
  length (tables els) = 8%nat /\ forallb rectangular (tables els) = true.
Proof.
  intros Hrun.
  destruct (build_elements_inr _ _ Hrun)
    as (h1 & h2 & h3 & bt & nm & _ & _ & _ & _ & _ & ->).
  split; vm_compute; reflexivity.
Qed.

Lemma tables_are_rectangular_witness :
  length (tables story) = 8%nat /\ forallb rectangular (tables story) = true.
Proof.
  apply (tables_are_rectangular getSampleStyleSheet). vm_compute. reflexivity.
Defined.

(** ** Invocations *)

(** X4: when the construction raises, because a referenced name is missing
    from the stylesheet or holds a style of another class, the invocation
    ends with that exception before anything else happens: nothing is
    printed, the engine is not called and no file is written. *)
Theorem construction_failure_stops_invocation layout serialize open_error
    (styles : StyleSheet) e (w : World) :
  build_elements styles [] = inl e ->
  create_api_pdf_with layout serialize open_error styles w = (inl e, w).
Proof. intros H. rewrite create_api_pdf_with_run, H. reflexivity. Qed.

Lemma construction_failure_stops_invocation_witness :
  let w := MkWorld ["generate_pdf_direct.py"] ∅ 0 ∅ ["$ "] in
  let styles : StyleSheet :=
    <["Heading1" := OtherStyle ListStyle "UnorderedList"]>
      (delete "Normal" getSampleStyleSheet) in
  create_api_pdf_with (λ _ _, inr (MkPagination [] 1)) (λ _ _ _ _ _, "%PDF")
    (λ _, None) styles w
  = (inl (AssertionError
            "Parent style ListStyle must have same class as new style ParagraphStyle"),
     w).
Proof.
  intros w styles. apply construction_failure_stops_invocation.
  vm_compute. reflexivity.
Defined.

(** X5: when the engine rejects the document its exception leaves the
    function unchanged and uncaught.  By then the line announcing the
    generation has been printed; none of the lines reporting success is,
    and arguments, environment, clock and files are as before. *)
Theorem engine_failure_propagates layout serialize open_error (w : World) e :
  layout doc story = inl e ->
  create_api_pdf layout serialize open_error w =
  (inl e, MkWorld (argv w) (environ w) (clock w) (files w)
            (stdout w ++ ["🚀 Generating PDF..."])).
Proof. intros H. rewrite create_api_pdf_run, H. reflexivity. Qed.

Lemma engine_failure_propagates_witness :
  let e := Exc "LayoutError" "Flowable too large" in
  let w := MkWorld ["generate_pdf_direct.py"] ∅ 0 ∅ ["$ "] in
  create_api_pdf (λ _ _, inl e) (λ _ _ _ _ _, "%PDF") (λ _, None) w =
  (inl e, MkWorld (argv w) (environ w) (clock w) (files w)
            (stdout w ++ ["🚀 Generating PDF..."])).
Proof.
  intros e w. apply engine_failure_propagates. reflexivity.
Defined.



(** X8: when the engine accepts the document but the file name of the
    template cannot be opened for writing, the exception of the failed open
    leaves the function unchanged and uncaught; the announcing line has
    been printed, none of the lines reporting success is, and arguments,
    environment, clock and files are as before. *)
Theorem open_failure_propagates layout serialize open_error (w : World) pages e :
  layout doc story = inr pages ->
  open_error (filename doc) = Some e ->
  create_api_pdf layout serialize open_error w =
  (inl e, MkWorld (argv w) (environ w) (clock w) (files w)
            (stdout w ++ ["🚀 Generating PDF..."])).
Proof. intros H Ho. rewrite create_api_pdf_run, H, Ho. reflexivity. Qed.

Lemma open_failure_propagates_witness :
  let e := Exc "PermissionError" "[Errno 13] Permission denied: 'API_DOCUMENTATION.pdf'" in
  let w := MkWorld [] ∅ 0 {["API_DOCUMENTATION.pdf" := "%PDF old"]} [] in
  create_api_pdf (λ _ _, inr (MkPagination [] 15)) (λ _ _ _ _ _, "%PDF new")
    (λ _, Some e) w =
  (inl e, MkWorld (argv w) (environ w) (clock w) (files w)
            (stdout w ++ ["🚀 Generating PDF..."])).
Proof.
  intros e w.
  apply (open_failure_propagates _ _ _ w (MkPagination [] 15) e); reflexivity.
Defined.
